(** * RegisterForm: a shallow embedding of [src/RegisterForm.jsx]

    The component keeps two pieces of hook state, [isRegistered] and
    [formData], defines two event handlers, [handleChange] and
    [handleSubmit], and returns a JSX tree.  The JS object [formData] is a
    finite map from property names to strings; the handlers are closures
    that emit a sequence of calls (to the event, to the console, and to
    the state setters); the JSX tree is a first-order tree whose props may
    hold those closures. *)

From stdpp Require Import base strings gmap list.

Open Scope string_scope.
Open Scope list_scope.

(** ** State held by the two [useState] hooks *)

Module Hooks.

(** [formData] is a plain JS object keyed by property name. *)
Record t : Type := mk {
  isRegistered : bool;
  formData : gmap string string;
}.

(** The arguments of the two [useState] calls. *)
Definition initialFormData : gmap string string :=
  <["password" := ""]> (<["email" := ""]> (<["username" := ""]> ∅)).

Definition initial : t :=
  {| isRegistered := false; formData := initialFormData |}.

End Hooks.

Import Hooks.

(** ** Events and the calls a handler makes *)

(** [e.target] of a change event: the input's [name] and current [value]. *)
Record Target : Type := { name : string; value : string }.

Record ChangeEvent : Type := { target : Target }.

(** A submit event; the handler only calls its [preventDefault] method. *)
Inductive SubmitEvent : Type := FormSubmit.

(** The calls a handler performs, in program order.  The setters do not
    write the state at once: they queue an update (a new value, or an
    updater applied to the previous value) that is applied when the
    handler has returned. *)
Inductive Call : Type :=
| PreventDefault
| ConsoleLog (label : string) (data : gmap string string)
| SetIsRegistered (b : bool)
| SetFormData (updater : gmap string string → gmap string string).

(** ** The two handlers *)

(** [const { name, value } = e.target;
     setFormData((prevData) => ({ ...prevData, [name]: value }))] *)
Definition handleChange (e : ChangeEvent) : list Call :=
  let '{| name := name; value := value |} := target e in
  [SetFormData (λ prevData, <[name := value]> prevData)].

(** [e.preventDefault();
     console.log("Form submitted with:", formData);
     setIsRegistered(true)]
    where [formData] is the value captured by the render that created the
    closure. *)
Definition handleSubmit (formData : gmap string string) (e : SubmitEvent)
  : list Call :=
  [PreventDefault;
   ConsoleLog "Form submitted with:" formData;
   SetIsRegistered true].

(** ** Applying the queued updates *)

Definition apply_call (st : Hooks.t) (c : Call) : Hooks.t :=
  match c with
  | PreventDefault => st
  | ConsoleLog _ _ => st
  | SetIsRegistered b => {| isRegistered := b; formData := formData st |}
  | SetFormData updater =>
      {| isRegistered := isRegistered st; formData := updater (formData st) |}
  end.

Definition commit (calls : list Call) (st : Hooks.t) : Hooks.t :=
  foldl apply_call st calls.

(** ** The JSX tree *)

(** The value of a prop: a string literal [p="..."], a braced expression
    that reads a property of [formData] (a string, or [undefined] when the
    object has no such property), a bare prop such as [required], or one
    of the two handler closures. *)
Inductive PropValue : Type :=
| Str (s : string)
| Expr (v : option string)
| Flag
| OnChange (h : ChangeEvent → list Call)
| OnSubmit (h : SubmitEvent → list Call).

#[local] Unset Elimination Schemes.
Inductive Node : Type :=
| Text (s : string)
| Elem (tag : string) (props : list (string * PropValue)) (children : list Node).
#[local] Set Elimination Schemes.

(** ** The component *)

Definition successMessage : string := "Registration successful! Welcome aboard!".

Definition RegisterForm (st : Hooks.t) : Node :=
  let isRegistered := isRegistered st in
  let formData := formData st in
  if isRegistered then
    Elem "h4" [] [Text successMessage]
  else
    let handleChange := handleChange in
    let handleSubmit := handleSubmit formData in
    Elem "div" [("className", Str "card")] [
      Elem "form" [("onSubmit", OnSubmit handleSubmit)] [
        Elem "div" [] [
          Elem "label" [("htmlFor", Str "username")] [Text "Username"];
          Elem "br" [] [];
          Elem "input" [
            ("type", Str "text");
            ("id", Str "username");
            ("name", Str "username");
            ("placeholder", Str "username");
            ("value", Expr (formData !! "username"));
            ("onChange", OnChange handleChange);
            ("required", Flag)
          ] []
        ];
        Elem "div" [] [
          Elem "label" [("htmlFor", Str "email")] [Text "Email"];
          Elem "br" [] [];
          Elem "input" [
            ("type", Str "email");
            ("id", Str "email");
            ("name", Str "email");
            ("placeholder", Str "email");
            ("value", Expr (formData !! "email"));
            ("onChange", OnChange handleChange);
            ("required", Flag)
          ] []
        ];
        Elem "div" [] [
          Elem "label" [("htmlFor", Str "password")] [Text "Password"];
          Elem "br" [] [];
          Elem "input" [
            ("type", Str "password");
            ("id", Str "password");
            ("name", Str "password");
            ("placeholder", Str "password");
            ("value", Expr (formData !! "password"));
            ("onChange", OnChange handleChange);
            ("required", Flag)
          ] []
        ];
        Text " ";
        Elem "br" [] [];
        Elem "button" [("type", Str "submit")] [Text "Register"]
      ]
    ].

(** ** The two operations of a form session *)

(** A change event on an input named [name] whose text is now [value]:
    [handleChange] runs and its queued update is applied. *)
Definition updateField (name value : string) (st : Hooks.t) : Hooks.t :=
  commit (handleChange {| target := {| name := name; value := value |} |}) st.

(** A submit event on the form: the [handleSubmit] closure of the render
    of [st] runs and its queued update is applied. *)
Definition submit (st : Hooks.t) : Hooks.t :=
  commit (handleSubmit (formData st) FormSubmit) st.

Inductive Op : Type :=
| UpdateField (name value : string)
| Submit.

Definition step (st : Hooks.t) (op : Op) : Hooks.t :=
  match op with
  | UpdateField name value => updateField name value st
  | Submit => submit st
  end.

Definition run (ops : list Op) (st : Hooks.t) : Hooks.t := foldl step st ops.

(** States a session can be in: [initial] and whatever the operations
    make of it. *)
Inductive reachable : Hooks.t → Prop :=
| reachable_initial : reachable initial
| reachable_step st op : reachable st → reachable (step st op).

(** The three fields the form tracks, and the property name of each. *)
Inductive Field : Type := Username | Email | Password.

Definition field_name (f : Field) : string :=
  match f with
  | Username => "username"
  | Email => "email"
  | Password => "password"
  end.

(** ** Reading a rendered tree *)

(** All elements with tag [t], in document order. *)
Fixpoint elements_by_tag (t : string) (n : Node) : list Node :=
  match n with
  | Text _ => []
  | Elem tag _ children =>
      (if String.eqb tag t then [n] else [])
        ++ flat_map (elements_by_tag t) children
  end.

(** All text nodes, in document order. *)
Fixpoint texts (n : Node) : list string :=
  match n with
  | Text s => [s]
  | Elem _ _ children => flat_map texts children
  end.

(** All braced values read from [formData] by the props of the tree. *)
Definition prop_exprs (props : list (string * PropValue)) : list (option string) :=
  flat_map (λ p, match snd p with Expr v => [v] | _ => [] end) props.

Fixpoint exprs (n : Node) : list (option string) :=
  match n with
  | Text _ => []
  | Elem _ props children => prop_exprs props ++ flat_map exprs children
  end.

(** The value of prop [k] of an element, if it has one. *)
Definition get_prop (k : string) (n : Node) : option PropValue :=
  match n with
  | Text _ => None
  | Elem _ props _ => snd <$> find (λ p, String.eqb (fst p) k) props
  end.

(** An [input] whose [id], [name] and [placeholder] are all [nm], which
    shows [v], reports changes to [handleChange] and is [required]. *)
Definition bound_input (type nm : string) (v : option string) : Node :=
  Elem "input" [
    ("type", Str type);
    ("id", Str nm);
    ("name", Str nm);
    ("placeholder", Str nm);
    ("value", Expr v);
    ("onChange", OnChange handleChange);
    ("required", Flag)
  ] [].

(** ** Reading the calls of a handler *)

Definition is_preventDefault (c : Call) : bool :=
  match c with PreventDefault => true | _ => false end.

Definition is_consoleLog (c : Call) : bool :=
  match c with ConsoleLog _ _ => true | _ => false end.

Definition is_setIsRegistered (c : Call) : bool :=
  match c with SetIsRegistered _ => true | _ => false end.

(** Position of the first call that satisfies [p]. *)
Fixpoint first_index (p : Call → bool) (calls : list Call) : option nat :=
  match calls with
  | [] => None
  | c :: calls => if p c then Some 0 else S <$> first_index p calls
  end.

(** A run of [updateField] calls on tracked fields. *)
Definition field_updates (calls : list (Field * string)) : list Op :=
  map (λ c, UpdateField (field_name (fst c)) (snd c)) calls.

(** ** Reading a sequence of operations *)

Definition is_Submit (op : Op) : bool :=
  match op with Submit => true | UpdateField _ _ => false end.

(** The value of the last [UpdateField] on [n] among [ops], if there is
    one. *)
Fixpoint last_write (n : string) (ops : list Op) : option string :=
  match ops with
  | [] => None
  | op :: ops =>
      match last_write n ops with
      | Some v => Some v
      | None =>
          match op with
          | UpdateField m v => if String.eqb m n then Some v else None
          | Submit => None
          end
      end
  end.

(** The names of the three tracked fields, as a set of property names. *)
Definition tracked_names : gset string :=
  {[ "username"; "email"; "password" ]}.

(** ** Events delivered through the rendered tree *)

(** The [name] attribute of an element. *)
Definition name_of (n : Node) : option string :=
  match get_prop "name" n with
  | Some (Str s) => Some s
  | _ => None
  end.

(** The first input of a tree whose [name] is [nm]. *)
Definition input_named (nm : string) (view : Node) : option Node :=
  find (λ i, match name_of i with Some s => String.eqb s nm | None => false end)
       (elements_by_tag "input" view).

(** What the page can deliver to the component: a change event of the
    input named [nm], whose value is now [text], or a submit event of the
    form. *)
Inductive UiEvent : Type :=
| Typed (nm text : string)
| Submitted.

(** An event reaches the handler that the current render attached to the
    element it happened on: [onChange] of the input, called with that
    input as [e.target], or [onSubmit] of the form.  When the current
    render has no such element, nothing runs. *)
Definition deliver (st : Hooks.t) (ev : UiEvent) : Hooks.t :=
  let view := RegisterForm st in
  match ev with
  | Typed nm text =>
      match input_named nm view with
      | Some i =>
          match get_prop "onChange" i, name_of i with
          | Some (OnChange h), Some s =>
              commit (h {| target := {| name := s; value := text |} |}) st
          | _, _ => st
          end
      | None => st
      end
  | Submitted =>
      match elements_by_tag "form" view with
      | form :: _ =>
          match get_prop "onSubmit" form with
          | Some (OnSubmit h) => commit (h FormSubmit) st
          | _ => st
          end
      | [] => st
      end
  end.

Definition deliver_all (evs : list UiEvent) (st : Hooks.t) : Hooks.t :=
  foldl deliver st evs.

(** The [onSubmit] handlers that the forms of a tree carry. *)
Definition onSubmit_handlers (view : Node) : list (SubmitEvent → list Call) :=
  flat_map (λ form, match get_prop "onSubmit" form with
                    | Some (OnSubmit h) => [h]
                    | _ => []
                    end)
           (elements_by_tag "form" view).

(** The records that a sequence of calls passes to [console.log]. *)
Definition logged_records (calls : list Call) : list (gmap string string) :=
  flat_map (λ c, match c with ConsoleLog _ data => [data] | _ => [] end) calls.

(** ** The page: [src/App.jsx] *)

(** [App] holds one hook, [count]; the [RegisterForm] it renders holds
    its own two hooks.  The state of the page is both. *)
Module Page.

Record t : Type := mk {
  count : Z;
  registerForm : Hooks.t;
}.

(** [useState(0)], and the initial hooks of the child. *)
Definition initial : t :=
  {| count := 0; registerForm := Hooks.initial |}.

End Page.

(** [count + 1] on a JS number that holds an integer between [-2^53]
    and [2^53]: the sum is exact below [2^53], and [2^53 + 1] is not a
    double and rounds (to even) back to [2^53]. *)
Definition js_add1 (count : Z) : Z :=
  if (count <? 2 ^ 53)%Z then (count + 1)%Z else count.





(** The tree [App] returns: text, a braced number, elements, the
    fragment, and the tree rendered by a child component. *)
#[local] Unset Elimination Schemes.
#[local] Set Elimination Schemes.





(** * Properties *)

(** ** The handlers as state transformers *)

Section Operations.

Implicit Types (st : Hooks.t) (n v : string) (f g : Field) (op : Op).

Lemma updateField_unfold n v st :
  updateField n v st =
  {| isRegistered := isRegistered st; formData := <[n := v]> (formData st) |}.
Proof. reflexivity. Qed.

Lemma submit_unfold st :
  submit st = {| isRegistered := true; formData := formData st |}.
Proof. reflexivity. Qed.

Lemma run_nil st : run [] st = st.
Proof. reflexivity. Qed.

Lemma run_cons op ops st : run (op :: ops) st = run ops (step st op).
Proof. reflexivity. Qed.

Lemma run_app ops1 ops2 st : run (ops1 ++ ops2) st = run ops2 (run ops1 st).
Proof. unfold run. apply foldl_app. Qed.

Lemma run_snoc ops op st : run (ops ++ [op]) st = step (run ops st) op.
Proof. by rewrite run_app. Qed.

Lemma field_name_inj f g : field_name f = field_name g → f = g.
Proof. by destruct f, g. Qed.

Lemma updateField_lookup_eq n v st : formData (updateField n v st) !! n = Some v.
Proof. rewrite updateField_unfold. simpl. apply lookup_insert_eq. Qed.

Lemma updateField_lookup_ne n k v st :
  n ≠ k → formData (updateField n v st) !! k = formData st !! k.
Proof. intros Hne. rewrite updateField_unfold. simpl. by apply lookup_insert_ne. Qed.

Lemma step_keeps_registered st op :
  isRegistered st = true → isRegistered (step st op) = true.
Proof. intros Hreg. by destruct op. Qed.

Lemma run_keeps_registered ops st :
  isRegistered st = true → isRegistered (run ops st) = true.
Proof.
  revert st. induction ops as [|op ops IH]; intros st Hreg; [done|].
  rewrite run_cons. by apply IH, step_keeps_registered.
Qed.

Lemma field_updates_app (cs1 cs2 : list (Field * string)) :
  field_updates (cs1 ++ cs2) = field_updates cs1 ++ field_updates cs2.
Proof. unfold field_updates. apply map_app. Qed.

Lemma submit_idempotent st : submit (submit st) = submit st.
Proof. reflexivity. Qed.

End Operations.

(** The two-call example of the README pattern: [email] first, then
    [username]; [password] keeps its initial empty string. *)
Example update_email_then_username :
  formData (run [UpdateField "email" "a@b.com"; UpdateField "username" "alice"]
              initial)
  = {[ "username" := "alice"; "email" := "a@b.com"; "password" := "" ]}.
Proof. vm_compute. reflexivity. Qed.

(** C1. Updates are field-local.  Take any state and any sequence of
    [updateField] calls whose names are tracked fields and whose values are
    arbitrary strings, and single out any call [(f, v)] of the sequence:
    a field [g] other than [f] has, in the state that call produces, the
    value it had in the state the call started from. *)
Theorem updateField_field_local
    (st : Hooks.t) (before after : list (Field * string))
    (f : Field) (v : string) (g : Field) :
  g ≠ f →
  let pre := run (field_updates before) st in
  let post := run (field_updates (before ++ [(f, v)])) st in
  field_updates (before ++ (f, v) :: after)
    = field_updates before ++ UpdateField (field_name f) v :: field_updates after
  ∧ post = updateField (field_name f) v pre
  ∧ formData post !! field_name g = formData pre !! field_name g.
Proof.
  intros Hne pre post. split; [|split].
  - apply field_updates_app.
  - unfold post, pre. rewrite field_updates_app. apply run_snoc.
  - unfold post, pre. rewrite field_updates_app.
    change (field_updates [(f, v)]) with [UpdateField (field_name f) v].
    rewrite run_snoc. simpl.
    apply updateField_lookup_ne. intros Heq. by apply Hne, field_name_inj.
Qed.

Lemma updateField_field_local_witness :
  let st := {| isRegistered := false; formData := {["email" := "a@b.com"]} |} in
  Email ≠ Username
  ∧ formData (run (field_updates ([(Password, "p")] ++ [(Username, "alice")])) st)
      !! field_name Email
    = formData (run (field_updates [(Password, "p")]) st) !! field_name Email.
Proof.
  intros st. split; [discriminate|].
  apply (updateField_field_local st [(Password, "p")] [] Username "alice" Email).
  discriminate.
Defined.

(** C2. A name outside [username], [email], [password] is not rejected:
    [updateField] is total, stores the value under that name in
    [formData], and leaves the three tracked fields as they were. *)
Theorem updateField_untracked_name (st : Hooks.t) (n v : string) :
  (∀ f, n ≠ field_name f) →
  formData (updateField n v st) !! n = Some v
  ∧ (∀ f, formData (updateField n v st) !! field_name f
          = formData st !! field_name f).
Proof.
  intros Hout. split.
  - apply updateField_lookup_eq.
  - intros f. apply updateField_lookup_ne, Hout.
Qed.

Lemma updateField_untracked_name_witness :
  formData (updateField "phone" "555" initial) !! "phone" = Some "555"
  ∧ (∀ f, formData (updateField "phone" "555" initial) !! field_name f
          = formData initial !! field_name f).
Proof.
  apply (updateField_untracked_name initial "phone" "555").
  intros f. destruct f; discriminate.
Defined.

(** C3. Submitting again changes nothing: from any state whose flag is
    already set, [submit] leaves the flag set and leaves [formData], hence
    each of its three fields, as it was. *)
Theorem submit_again_unchanged (st : Hooks.t) :
  isRegistered st = true →
  isRegistered (submit st) = true
  ∧ formData (submit st) = formData st
  ∧ (∀ f, formData (submit st) !! field_name f = formData st !! field_name f)
  ∧ submit st = st.
Proof.
  intros Hreg. destruct st as [r fd]. simpl in Hreg. subst r.
  rewrite submit_unfold. simpl. auto.
Qed.

Lemma submit_again_unchanged_witness :
  let st := submit (updateField "username" "bob" initial) in
  isRegistered st = true ∧ submit st = st.
Proof.
  intros st. split; [reflexivity|].
  apply (submit_again_unchanged st). reflexivity.
Defined.

(** C4. The flag is one-way: from a reachable state whose flag is set,
    each operation ([updateField] with any name and value, or [submit])
    and each sequence of operations ends in a state whose flag is set. *)
Theorem registered_one_way (st : Hooks.t) :
  reachable st →
  isRegistered st = true →
  (∀ op, isRegistered (step st op) = true)
  ∧ (∀ ops, isRegistered (run ops st) = true).
Proof.
  intros _ Hreg. split.
  - intros op. by apply step_keeps_registered.
  - intros ops. by apply run_keeps_registered.
Qed.

Lemma registered_one_way_witness :
  reachable (step initial Submit)
  ∧ isRegistered (step initial Submit) = true
  ∧ isRegistered (step (step initial Submit) (UpdateField "email" "x")) = true.
Proof.
  assert (Hr : reachable (step initial Submit))
    by apply reachable_step, reachable_initial.
  split; [exact Hr|]. split; [reflexivity|].
  apply (registered_one_way (step initial Submit) Hr). reflexivity.
Defined.

(** C10. Each operation touches its own piece of state only:
    [updateField] never changes the flag, and [submit], first call
    included, never changes [formData]. *)
Theorem operations_frame (st : Hooks.t) :
  (∀ n v, isRegistered (updateField n v st) = isRegistered st)
  ∧ formData (submit st) = formData st.
Proof. split; [intros n v|]; reflexivity. Qed.

(** ** The view *)

Section View.

Implicit Types (st : Hooks.t).

Lemma RegisterForm_registered st :
  isRegistered st = true →
  RegisterForm st = Elem "h4" [] [Text successMessage].
Proof. intros Hreg. unfold RegisterForm. by rewrite Hreg. Qed.

End View.

(** C5. When the flag is set the view is the confirmation message and
    nothing else: an [h4] holding the one fixed text, with no [input],
    [button], [form] or [label] element and no value read from [formData];
    it is the same tree for every [formData], the all-empty one
    included. *)
Theorem registered_view_is_confirmation (st : Hooks.t) :
  isRegistered st = true →
  RegisterForm st = Elem "h4" [] [Text "Registration successful! Welcome aboard!"]
  ∧ elements_by_tag "input" (RegisterForm st) = []
  ∧ elements_by_tag "button" (RegisterForm st) = []
  ∧ elements_by_tag "form" (RegisterForm st) = []
  ∧ elements_by_tag "label" (RegisterForm st) = []
  ∧ exprs (RegisterForm st) = []
  ∧ texts (RegisterForm st) = ["Registration successful! Welcome aboard!"]
  ∧ (∀ fd, RegisterForm {| isRegistered := true; formData := fd |}
           = RegisterForm st).
Proof.
  intros Hreg. rewrite (RegisterForm_registered st Hreg).
  repeat split.
Qed.

Lemma registered_view_is_confirmation_witness :
  RegisterForm {| isRegistered := true; formData := initialFormData |}
  = Elem "h4" [] [Text "Registration successful! Welcome aboard!"].
Proof.
  apply (registered_view_is_confirmation
           {| isRegistered := true; formData := initialFormData |}).
  reflexivity.
Defined.

(** C6. The scenario: from the initial state, setting [username] to
    [bob], [email] to [bob@x.com], [password] to [secret] and then
    submitting ends with exactly those three fields and the flag set, and
    whatever operations follow, the view is the confirmation message. *)
Theorem scenario_bob :
  let final :=
    run [UpdateField "username" "bob";
         UpdateField "email" "bob@x.com";
         UpdateField "password" "secret";
         Submit] initial in
  final = {| isRegistered := true;
             formData := {[ "username" := "bob";
                            "email" := "bob@x.com";
                            "password" := "secret" ]} |}
  ∧ isRegistered initial = false
  ∧ (∀ f, formData initial !! field_name f = Some "")
  ∧ (∀ ops, RegisterForm (run ops final)
            = Elem "h4" [] [Text "Registration successful! Welcome aboard!"]).
Proof.
  intros final. split; [|split; [|split]].
  - unfold final. vm_compute. reflexivity.
  - reflexivity.
  - intros f. by destruct f.
  - intros ops. apply RegisterForm_registered, run_keeps_registered. reflexivity.
Qed.

(** C7. While the flag is not set the view holds exactly three inputs,
    of types [text], [email] and [password], whose [id], [name] and
    [placeholder] are [username], [email] and [password], each
    [required], each showing the [formData] property of its name and
    reporting changes to [handleChange], and each with a [label] for its
    id; one [button] of type [submit] reading [Register], inside a [form]
    whose [onSubmit] is [handleSubmit]; and neither an [h4] nor the
    confirmation text.  A change reported for a field with text [v] makes
    that field [v], and in the initial state the three inputs show the
    empty string. *)
Theorem editing_view (st : Hooks.t) :
  isRegistered st = false →
  let view := RegisterForm st in
  elements_by_tag "input" view
    = [bound_input "text" "username" (formData st !! "username");
       bound_input "email" "email" (formData st !! "email");
       bound_input "password" "password" (formData st !! "password")]
  ∧ elements_by_tag "label" view
    = [Elem "label" [("htmlFor", Str "username")] [Text "Username"];
       Elem "label" [("htmlFor", Str "email")] [Text "Email"];
       Elem "label" [("htmlFor", Str "password")] [Text "Password"]]
  ∧ elements_by_tag "button" view
    = [Elem "button" [("type", Str "submit")] [Text "Register"]]
  ∧ get_prop "onSubmit" <$> elements_by_tag "form" view
    = [Some (OnSubmit (handleSubmit (formData st)))]
  ∧ elements_by_tag "h4" view = []
  ∧ texts view = ["Username"; "Email"; "Password"; " "; "Register"]
  ∧ ("Registration successful! Welcome aboard!" ∉ texts view)
  ∧ exprs view
    = [formData st !! "username"; formData st !! "email"; formData st !! "password"]
  ∧ (∀ f v,
       formData (commit (handleChange
                           {| target := {| name := field_name f; value := v |} |}) st)
         !! field_name f = Some v)
  ∧ exprs (RegisterForm initial) = [Some ""; Some ""; Some ""].
Proof.
  intros Hreg view. unfold view, RegisterForm. rewrite Hreg.
  repeat (split; [reflexivity|]).
  split; [|split; [reflexivity|split; [|reflexivity]]];
    [|intros f v; apply updateField_lookup_eq].
  cbn. rewrite !elem_of_cons, elem_of_nil. intros H.
  repeat (destruct H as [H|H]; [discriminate H|]). exact H.
Qed.

Lemma editing_view_witness :
  isRegistered initial = false
  ∧ elements_by_tag "button" (RegisterForm initial)
    = [Elem "button" [("type", Str "submit")] [Text "Register"]].
Proof.
  split; [reflexivity|].
  apply (editing_view initial). reflexivity.
Defined.

(** C8. In every run of the submit handler the call to
    [preventDefault] comes first: it is made before the field record is
    logged and before [setIsRegistered(true)] is called, and when it has
    been made the state is still what it was. *)
Theorem preventDefault_first (fd : gmap string string) (e : SubmitEvent) :
  let calls := handleSubmit fd e in
  ∃ i j k,
    first_index is_preventDefault calls = Some i
    ∧ first_index is_consoleLog calls = Some j
    ∧ first_index is_setIsRegistered calls = Some k
    ∧ i < j ∧ i < k
    ∧ calls !! j = Some (ConsoleLog "Form submitted with:" fd)
    ∧ calls !! k = Some (SetIsRegistered true)
    ∧ (∀ st, commit (take (S i) calls) st = st).
Proof.
  intros calls. exists 0, 1, 2. unfold calls, handleSubmit. simpl.
  repeat split; lia.
Qed.

(** * Further properties of the handlers *)

Section MoreOperations.

Implicit Types (st : Hooks.t) (n v : string) (f g : Field) (op : Op).

Lemma hooks_eq st1 st2 :
  isRegistered st1 = isRegistered st2 → formData st1 = formData st2 → st1 = st2.
Proof. destruct st1, st2. simpl. by intros -> ->. Qed.

Lemma step_formData_lookup st op k :
  formData (step st op) !! k
  = match op with
    | UpdateField m v => if String.eqb m k then Some v else formData st !! k
    | Submit => formData st !! k
    end.
Proof.
  destruct op as [m v|]; [|done]. simpl.
  destruct (String.eqb_spec m k) as [->|Hne].
  - apply updateField_lookup_eq.
  - by apply updateField_lookup_ne.
Qed.

Lemma tracked_defined_step st op :
  (∀ f, is_Some (formData st !! field_name f)) →
  ∀ f, is_Some (formData (step st op) !! field_name f).
Proof.
  intros Hdef f. rewrite step_formData_lookup.
  destruct op as [m v|]; [|apply Hdef].
  destruct (String.eqb m (field_name f)); [by eexists|apply Hdef].
Qed.

Lemma tracked_defined_initial f : is_Some (formData initial !! field_name f).
Proof. exists "". by destruct f. Qed.

Lemma reachable_tracked_defined st :
  reachable st → ∀ f, is_Some (formData st !! field_name f).
Proof.
  induction 1 as [|st op _ IH].
  - apply tracked_defined_initial.
  - by apply tracked_defined_step.
Qed.

Lemma step_dom_subseteq st op : dom (formData st) ⊆ dom (formData (step st op)).
Proof.
  destruct op as [m v|]; [|done].
  change (step st (UpdateField m v)) with (updateField m v st).
  rewrite updateField_unfold. simpl. apply dom_insert_subseteq.
Qed.

Lemma run_formData_ext ops st1 st2 :
  formData st1 = formData st2 → formData (run ops st1) = formData (run ops st2).
Proof.
  revert st1 st2. induction ops as [|op ops IH]; intros st1 st2 Heq; [done|].
  rewrite !run_cons. apply IH. destruct op as [m v|]; cbn [step].
  - rewrite !updateField_unfold. simpl. by rewrite Heq.
  - done.
Qed.

End MoreOperations.

(** X1. The last write wins: two changes to the same property leave the
    state that the second change alone would leave. *)
Theorem updateField_last_write_wins (st : Hooks.t) (n v1 v2 : string) :
  updateField n v2 (updateField n v1 st) = updateField n v2 st.
Proof.
  rewrite !updateField_unfold. simpl. f_equal. apply insert_insert_eq.
Qed.

(** X2. Changes to different properties commute: they may be applied in
    either order. *)
Theorem updateField_commute (st : Hooks.t) (n1 n2 v1 v2 : string) :
  n1 ≠ n2 →
  updateField n1 v1 (updateField n2 v2 st)
  = updateField n2 v2 (updateField n1 v1 st).
Proof.
  intros Hne. rewrite !updateField_unfold. simpl. f_equal.
  by apply insert_insert_ne.
Qed.

Lemma updateField_commute_witness :
  updateField "email" "a@b.com" (updateField "username" "alice" initial)
  = updateField "username" "alice" (updateField "email" "a@b.com" initial).
Proof. apply updateField_commute. discriminate. Defined.

(** X3. Writing back the value a property already has changes nothing:
    the new object is equal to the previous one. *)
Theorem updateField_same_value (st : Hooks.t) (n v : string) :
  formData st !! n = Some v → updateField n v st = st.
Proof.
  intros Hlook. apply hooks_eq; [done|].
  rewrite updateField_unfold. simpl. by apply insert_id.
Qed.

Lemma updateField_same_value_witness : updateField "email" "" initial = initial.
Proof. apply updateField_same_value. reflexivity. Defined.

(** X4. After any sequence of operations the flag is set exactly when it
    was set before or the sequence holds a [submit]: nothing but
    submission sets it, and any submission does. *)
Theorem registered_iff_submitted (ops : list Op) (st : Hooks.t) :
  isRegistered (run ops st) = isRegistered st || existsb is_Submit ops.
Proof.
  revert st. induction ops as [|op ops IH]; intros st.
  - simpl. by rewrite orb_false_r.
  - rewrite run_cons, IH. destruct op as [m v|]; simpl.
    + done.
    + by rewrite orb_true_r.
Qed.

(** X5. Submissions are invisible to [formData]: dropping every [submit]
    from a sequence of operations gives the same [formData]. *)
Theorem formData_ignores_submit (ops : list Op) (st : Hooks.t) :
  formData (run ops st)
  = formData (run (List.filter (λ op, negb (is_Submit op)) ops) st).
Proof.
  revert st. induction ops as [|op ops IH]; intros st; [done|].
  rewrite run_cons, IH. destruct op as [m v|]; cbn [List.filter is_Submit negb].
  - by rewrite run_cons.
  - by apply run_formData_ext.
Qed.

Lemma run_lookup (ops : list Op) (st : Hooks.t) (n : string) :
  formData (run ops st) !! n
  = match last_write n ops with
    | Some v => Some v
    | None => formData st !! n
    end.
Proof.
  revert st. induction ops as [|op ops IH]; intros st; [done|].
  rewrite run_cons, IH. simpl. destruct (last_write n ops); [done|].
  rewrite step_formData_lookup. destruct op as [m v|]; [|done].
  by destruct (String.eqb m n).
Qed.

Lemma commit_app (calls1 calls2 : list Call) (st : Hooks.t) :
  commit (calls1 ++ calls2) st = commit calls2 (commit calls1 st).
Proof. unfold commit. apply foldl_app. Qed.

(** X6. Reading a property after a sequence of operations gives the
    value of the last change to that property in the sequence, and the
    value it had at the start when the sequence has none. *)
Theorem run_lookup_last_write (ops : list Op) (st : Hooks.t) (n : string) :
  formData (run ops st) !! n
  = match last_write n ops with
    | Some v => Some v
    | None => formData st !! n
    end.
Proof. apply run_lookup. Qed.

Section MoreView.

Implicit Types (st : Hooks.t) (n v : string) (f g : Field).

Lemma RegisterForm_editing_inputs st :
  isRegistered st = false →
  elements_by_tag "input" (RegisterForm st)
  = [bound_input "text" "username" (formData st !! "username");
     bound_input "email" "email" (formData st !! "email");
     bound_input "password" "password" (formData st !! "password")].
Proof. intros Hreg. unfold RegisterForm. by rewrite Hreg. Qed.

Lemma RegisterForm_editing_exprs st :
  isRegistered st = false →
  exprs (RegisterForm st)
  = [formData st !! "username"; formData st !! "email"; formData st !! "password"].
Proof. intros Hreg. unfold RegisterForm. by rewrite Hreg. Qed.

Lemma RegisterForm_editing_texts st :
  isRegistered st = false →
  texts (RegisterForm st) = ["Username"; "Email"; "Password"; " "; "Register"].
Proof. intros Hreg. unfold RegisterForm. by rewrite Hreg. Qed.

Lemma RegisterForm_editing_onSubmit st :
  isRegistered st = false →
  onSubmit_handlers (RegisterForm st) = [handleSubmit (formData st)].
Proof. intros Hreg. unfold RegisterForm. by rewrite Hreg. Qed.

Lemma logged_records_handleSubmit (fd : gmap string string) (e : SubmitEvent) :
  logged_records (handleSubmit fd e) = [fd].
Proof. reflexivity. Qed.

Lemma updateField_isRegistered n v st :
  isRegistered (updateField n v st) = isRegistered st.
Proof. reflexivity. Qed.

End MoreView.

(** X7. In every reachable state each of the three tracked properties
    holds a string, so no input of the rendered form is ever given
    [undefined] as its value. *)
Theorem reachable_inputs_defined (st : Hooks.t) :
  reachable st →
  (∀ f, is_Some (formData st !! field_name f))
  ∧ Forall is_Some (exprs (RegisterForm st)).
Proof.
  intros Hreach. pose proof (reachable_tracked_defined st Hreach) as Hdef.
  split; [exact Hdef|].
  destruct (isRegistered st) eqn:Hreg.
  - rewrite (RegisterForm_registered st Hreg). constructor.
  - rewrite (RegisterForm_editing_exprs st Hreg).
    repeat constructor;
      [apply (Hdef Username)|apply (Hdef Email)|apply (Hdef Password)].
Qed.

Lemma reachable_inputs_defined_witness :
  Forall is_Some (exprs (RegisterForm (step initial (UpdateField "username" "bob")))).
Proof.
  apply (reachable_inputs_defined (step initial (UpdateField "username" "bob"))).
  apply reachable_step, reachable_initial.
Defined.

(** X8. No operation removes a property: a change adds its name to the
    properties of [formData], and after any sequence of operations every
    property that was there is still there. *)
Theorem formData_dom_grows (st : Hooks.t) :
  (∀ n v, dom (formData (updateField n v st)) = {[n]} ∪ dom (formData st))
  ∧ (∀ ops, dom (formData st) ⊆ dom (formData (run ops st))).
Proof.
  split.
  - intros n v. rewrite updateField_unfold. simpl. apply dom_insert_L.
  - intros ops. revert st. induction ops as [|op ops IH]; intros st; [done|].
    rewrite run_cons. etrans; [apply (step_dom_subseteq st op)|apply IH].
Qed.

(** X9. Changes to tracked fields keep the shape of the record: when
    [formData] has exactly the properties [username], [email] and
    [password], it still has exactly those after any sequence of changes
    to tracked fields. *)
Theorem tracked_updates_keep_shape (st : Hooks.t) (calls : list (Field * string)) :
  dom (formData st) = tracked_names →
  dom (formData (run (field_updates calls) st)) = tracked_names.
Proof.
  revert st. induction calls as [|[f v] calls IH]; intros st Hdom; [done|].
  change (field_updates ((f, v) :: calls))
    with (UpdateField (field_name f) v :: field_updates calls).
  rewrite run_cons. apply IH. cbn [step].
  rewrite updateField_unfold. simpl. rewrite dom_insert_L, Hdom.
  unfold tracked_names. destruct f; set_solver.
Qed.

Lemma tracked_updates_keep_shape_witness :
  dom (formData (run (field_updates [(Email, "a@b.com"); (Email, "")]) initial))
  = tracked_names.
Proof.
  apply (tracked_updates_keep_shape initial).
  unfold initial, initialFormData, tracked_names. simpl.
  rewrite !dom_insert_L, dom_empty_L. set_solver.
Defined.

(** X10. What is typed is what is shown: after a change to a tracked
    field, the form rendered from the new state gives the input of that
    field the new text and gives the other two inputs what they had. *)
Theorem view_shows_typed_value (st : Hooks.t) (f : Field) (v : string) :
  isRegistered st = false →
  let shown g :=
    if String.eqb (field_name g) (field_name f) then Some v
    else formData st !! field_name g in
  elements_by_tag "input" (RegisterForm (updateField (field_name f) v st))
  = [bound_input "text" "username" (shown Username);
     bound_input "email" "email" (shown Email);
     bound_input "password" "password" (shown Password)].
Proof.
  intros Hreg shown.
  rewrite RegisterForm_editing_inputs by done.
  unfold shown. rewrite updateField_unfold. simpl.
  destruct f; simpl;
    by rewrite ?lookup_insert_eq, ?lookup_insert_ne by discriminate.
Qed.

Lemma view_shows_typed_value_witness :
  elements_by_tag "input" (RegisterForm (updateField "email" "a@b.com" initial))
  = [bound_input "text" "username" (Some "");
     bound_input "email" "email" (Some "a@b.com");
     bound_input "password" "password" (Some "")].
Proof. apply (view_shows_typed_value initial Email "a@b.com"). reflexivity. Defined.

(** X11. While the form is shown, a change under a name that is not a
    tracked field does not show in the form: the inputs, labels, button,
    texts and shown values of the view are what they were.  It does show
    in the log: the submit handler that the new render attaches to the
    form logs one record, which holds the value under that name next to
    the three fields as they were. *)
Theorem untracked_update_hidden (st : Hooks.t) (n v : string) :
  isRegistered st = false →
  (∀ f, n ≠ field_name f) →
  let st' := updateField n v st in
  elements_by_tag "input" (RegisterForm st') = elements_by_tag "input" (RegisterForm st)
  ∧ elements_by_tag "label" (RegisterForm st') = elements_by_tag "label" (RegisterForm st)
  ∧ elements_by_tag "button" (RegisterForm st') = elements_by_tag "button" (RegisterForm st)
  ∧ texts (RegisterForm st') = texts (RegisterForm st)
  ∧ exprs (RegisterForm st') = exprs (RegisterForm st)
  ∧ ∃ h, onSubmit_handlers (RegisterForm st') = [h]
       ∧ ∀ e, ∃ data,
           logged_records (h e) = [data]
           ∧ data !! n = Some v
           ∧ ∀ f, data !! field_name f = formData st !! field_name f.
Proof.
  intros Hreg Hout st'.
  assert (Hreg' : isRegistered st' = false) by done.
  assert (Hlook : ∀ f, formData st' !! field_name f = formData st !! field_name f).
  { intros f. apply updateField_lookup_ne, Hout. }
  pose proof (Hlook Username) as Hu. pose proof (Hlook Email) as He.
  pose proof (Hlook Password) as Hp. cbn [field_name] in Hu, He, Hp.
  rewrite !RegisterForm_editing_inputs, !RegisterForm_editing_exprs,
    !RegisterForm_editing_texts, RegisterForm_editing_onSubmit by done.
  rewrite Hu, He, Hp. split; [reflexivity|].
  split; [unfold RegisterForm; by rewrite Hreg, Hreg'|].
  split; [unfold RegisterForm; by rewrite Hreg, Hreg'|].
  do 2 (split; [reflexivity|]).
  exists (handleSubmit (formData st')). split; [reflexivity|].
  intros e. exists (formData st'). rewrite logged_records_handleSubmit.
  split; [reflexivity|]. split; [apply updateField_lookup_eq|exact Hlook].
Qed.

Lemma untracked_update_hidden_witness :
  isRegistered initial = false
  ∧ exprs (RegisterForm (updateField "phone" "555" initial))
    = exprs (RegisterForm initial).
Proof.
  split; [reflexivity|].
  apply (untracked_update_hidden initial "phone" "555"); [reflexivity|].
  intros f. destruct f; discriminate.
Defined.

(** * Events delivered through the form *)

#[local] Set Warnings "-clear-no-such-hyp".

Section Delivery.

Implicit Types (st : Hooks.t) (n v : string) (f : Field) (ev : UiEvent).

Lemma deliver_all_cons ev evs st :
  deliver_all (ev :: evs) st = deliver_all evs (deliver st ev).
Proof. reflexivity. Qed.

Lemma deliver_all_app evs1 evs2 st :
  deliver_all (evs1 ++ evs2) st = deliver_all evs2 (deliver_all evs1 st).
Proof. unfold deliver_all. apply foldl_app. Qed.

Lemma deliver_registered_id st ev : isRegistered st = true → deliver st ev = st.
Proof.
  intros Hreg. unfold deliver. rewrite (RegisterForm_registered st Hreg).
  by destruct ev.
Qed.

Lemma deliver_all_registered_id evs st :
  isRegistered st = true → deliver_all evs st = st.
Proof.
  intros Hreg. induction evs as [|ev evs IH]; [done|].
  by rewrite deliver_all_cons, deliver_registered_id.
Qed.

Lemma name_of_bound_input (type nm : string) (shown : option string) :
  name_of (bound_input type nm shown) = Some nm.
Proof. reflexivity. Qed.

Lemma onChange_bound_input (type nm : string) (shown : option string) :
  get_prop "onChange" (bound_input type nm shown) = Some (OnChange handleChange).
Proof. reflexivity. Qed.

Lemma deliver_typed_editing st n v :
  isRegistered st = false →
  deliver st (Typed n v)
  = if bool_decide (n ∈ tracked_names) then updateField n v st else st.
Proof.
  intros Hreg. unfold deliver, input_named.
  rewrite (RegisterForm_editing_inputs st Hreg).
  cbn [find]. rewrite !name_of_bound_input.
  destruct (String.eqb_spec "username" n) as [<-|Hu].
  { by rewrite onChange_bound_input, name_of_bound_input. }
  destruct (String.eqb_spec "email" n) as [<-|He].
  { by rewrite onChange_bound_input, name_of_bound_input. }
  destruct (String.eqb_spec "password" n) as [<-|Hp].
  { by rewrite onChange_bound_input, name_of_bound_input. }
  rewrite bool_decide_eq_false_2; [done|]. unfold tracked_names. set_solver.
Qed.

Lemma deliver_submitted_editing st :
  isRegistered st = false → deliver st Submitted = submit st.
Proof. intros Hreg. unfold deliver, RegisterForm. by rewrite Hreg. Qed.

Lemma deliver_dom st ev :
  dom (formData st) = tracked_names → dom (formData (deliver st ev)) = tracked_names.
Proof.
  intros Hdom. destruct (isRegistered st) eqn:Hreg.
  { by rewrite deliver_registered_id. }
  destruct ev as [n v|].
  - rewrite deliver_typed_editing by done. case_bool_decide as Hin; [|done].
    rewrite updateField_unfold. simpl. rewrite dom_insert_L, Hdom. set_solver.
  - by rewrite deliver_submitted_editing.
Qed.

Lemma initial_dom : dom (formData initial) = tracked_names.
Proof.
  unfold initial, initialFormData, tracked_names. simpl.
  rewrite !dom_insert_L, dom_empty_L. set_solver.
Qed.

End Delivery.

(** X12. While the form is shown, text typed into the input of a
    tracked field is [updateField] on that field and a submission is
    [submit]; an event for an input name the form does not have reaches no
    handler and leaves the state as it is. *)
Theorem deliver_while_editing (st : Hooks.t) :
  isRegistered st = false →
  (∀ f v, deliver st (Typed (field_name f) v) = updateField (field_name f) v st)
  ∧ deliver st Submitted = submit st
  ∧ (∀ n v, (∀ f, n ≠ field_name f) → deliver st (Typed n v) = st).
Proof.
  intros Hreg. split; [|split].
  - intros f v. rewrite deliver_typed_editing by done.
    rewrite bool_decide_eq_true_2; [done|].
    unfold tracked_names. destruct f; set_solver.
  - by apply deliver_submitted_editing.
  - intros n v Hout. rewrite deliver_typed_editing by done.
    rewrite bool_decide_eq_false_2; [done|].
    unfold tracked_names. intros Hin.
    pose proof (Hout Username). pose proof (Hout Email).
    pose proof (Hout Password). set_solver.
Qed.

Lemma deliver_while_editing_witness :
  deliver initial (Typed "email" "a@b.com") = updateField "email" "a@b.com" initial
  ∧ deliver initial (Typed "phone" "555") = initial.
Proof.
  destruct (deliver_while_editing initial eq_refl) as (Hf & _ & Hn).
  split; [apply (Hf Email)|].
  apply Hn. intros f. destruct f; discriminate.
Defined.

(** X13. The confirmation is final: once the flag is set the rendered
    tree carries no handler, so no event and no sequence of events
    changes the state, [formData] included. *)
Theorem deliver_after_registration (st : Hooks.t) :
  isRegistered st = true →
  (∀ ev, deliver st ev = st) ∧ (∀ evs, deliver_all evs st = st).
Proof.
  intros Hreg. split.
  - intros ev. by apply deliver_registered_id.
  - intros evs. by apply deliver_all_registered_id.
Qed.

Lemma deliver_after_registration_witness :
  deliver_all [Typed "username" "eve"; Submitted] (submit initial) = submit initial.
Proof.
  destruct (deliver_after_registration (submit initial) eq_refl) as [_ H].
  apply H.
Defined.

(** X14. What the fields held at the first submission is what the
    session keeps: for any events before and after a submission, the final
    state is [submit] of the state the submission found. *)
Theorem submission_freezes_session (evs1 evs2 : list UiEvent) (st : Hooks.t) :
  deliver_all (evs1 ++ Submitted :: evs2) st = submit (deliver_all evs1 st).
Proof.
  rewrite deliver_all_app, deliver_all_cons.
  destruct (isRegistered (deliver_all evs1 st)) eqn:Hreg.
  - rewrite deliver_registered_id by done.
    rewrite deliver_all_registered_id by done.
    apply hooks_eq; [by rewrite submit_unfold|done].
  - rewrite deliver_submitted_editing by done.
    by rewrite deliver_all_registered_id.
Qed.

(** X15. Through the form the record keeps its shape: whatever events
    are delivered from the initial state, [formData] has exactly the
    properties [username], [email] and [password], and the state is one
    the two operations can reach. *)
Theorem delivered_states_shape (evs : list UiEvent) :
  dom (formData (deliver_all evs initial)) = tracked_names
  ∧ reachable (deliver_all evs initial).
Proof.
  assert (H : ∀ st, dom (formData st) = tracked_names → reachable st →
                dom (formData (deliver_all evs st)) = tracked_names
                ∧ reachable (deliver_all evs st)).
  { induction evs as [|ev evs IH]; intros st Hdom Hreach; [done|].
    rewrite deliver_all_cons. apply IH; [by apply deliver_dom|].
    destruct (isRegistered st) eqn:Hreg.
    { by rewrite deliver_registered_id. }
    destruct ev as [n v|].
    - rewrite deliver_typed_editing by done. case_bool_decide; [|done].
      apply (reachable_step st (UpdateField n v) Hreach).
    - rewrite deliver_submitted_editing by done.
      apply (reachable_step st Submit Hreach). }
  apply H; [apply initial_dom|apply reachable_initial].
Qed.

(** * The page *)

Section PageProperties.

Implicit Types (pg : Page.t).


Lemma js_add1_bounds (k : Z) :
  (0 ≤ k ≤ 2 ^ 53)%Z → (0 ≤ js_add1 k ≤ 2 ^ 53)%Z.
Proof. unfold js_add1. intros Hk. destruct (Z.ltb_spec k (2 ^ 53)); lia. Qed.


End PageProperties.


(** * The submission log and queued changes *)

(** X18. The submission log holds the password in clear.  Take a
    sequence of operations after which the form is still shown and whose
    last change to [password] wrote [p]: the submit handler that the
    render of the resulting state attaches to the form passes one record
    to [console.log], under the label [Form submitted with:], and that
    record has [p] under [password]. *)
Theorem submit_logs_password (ops : list Op) (st : Hooks.t) (p : string) :
  isRegistered (run ops st) = false →
  last_write "password" ops = Some p →
  ∃ h, onSubmit_handlers (RegisterForm (run ops st)) = [h]
     ∧ ∀ e, ∃ data,
         logged_records (h e) = [data]
         ∧ ConsoleLog "Form submitted with:" data ∈ h e
         ∧ data !! "password" = Some p.
Proof.
  intros Hreg Hlast. rewrite RegisterForm_editing_onSubmit by done.
  exists (handleSubmit (formData (run ops st))). split; [reflexivity|].
  intros e. exists (formData (run ops st)).
  rewrite logged_records_handleSubmit. split; [reflexivity|]. split.
  - unfold handleSubmit. rewrite !elem_of_cons. right; left; reflexivity.
  - by rewrite run_lookup, Hlast.
Qed.

Lemma submit_logs_password_witness :
  let ops := [UpdateField "password" "hunter2"; UpdateField "email" "a@b.com"] in
  isRegistered (run ops initial) = false
  ∧ last_write "password" ops = Some "hunter2"
  ∧ ∃ h, onSubmit_handlers (RegisterForm (run ops initial)) = [h]
       ∧ ∀ e, ∃ data,
           logged_records (h e) = [data]
           ∧ ConsoleLog "Form submitted with:" data ∈ h e
           ∧ data !! "password" = Some "hunter2".
Proof.
  intros ops. split; [reflexivity|]. split; [reflexivity|].
  apply (submit_logs_password ops initial "hunter2"); reflexivity.
Defined.

Lemma commit_changes_run (es : list ChangeEvent) (st : Hooks.t) :
  commit (flat_map handleChange es) st
  = run ((λ e, UpdateField (name (target e)) (value (target e))) <$> es) st.
Proof.
  revert st. induction es as [|e es IH]; intros st; [done|].
  cbn [flat_map fmap list_fmap]. rewrite commit_app, run_cons, IH.
  f_equal. by destruct e as [[n v]].
Qed.

(** X19. No queued change is lost.  Because [handleChange] passes
    [setFormData] an updater that spreads the previous record, committing
    the calls of several change events together leaves, under every
    property name, the value of the last of those events that names it,
    and the value it had before when none does; the flag is as it was. *)
Theorem queued_changes_all_apply (es : list ChangeEvent) (st : Hooks.t) (n : string) :
  let st' := commit (flat_map handleChange es) st in
  isRegistered st' = isRegistered st
  ∧ formData st' !! n
    = match last_write n
              ((λ e, UpdateField (name (target e)) (value (target e))) <$> es) with
      | Some v => Some v
      | None => formData st !! n
      end.
Proof.
  intros st'. unfold st'. clear st'. split.
  - revert st. induction es as [|e es IH]; intros st; [done|].
    cbn [flat_map]. rewrite commit_app, IH. by destruct e as [[m v]].
  - rewrite commit_changes_run. apply run_lookup.
Qed.
